(** * Greeting service: [api/main.py]

    The module registers one route on a FastAPI application,

<<
    app = FastAPI()

    @app.get("/greet")
    def greet(name: str):
        return {"message": f"Hello, my name is {name}"}
>>

    This development embeds the handler, the declaration the decorator
    and the signature make to the framework, and the framework's handling
    of a request routed to the endpoint, and proves the service contract
    over them. *)

From Stdlib Require Import String Ascii List ZArith Lia.
From stdpp Require Import base option list gmap strings.

Local Open Scope string_scope.

(** ** Python values, formatted strings and function calls *)

Module Py.

(** The Python values a response field can hold.  A [str] is kept as the
    [string] of its UTF-8 bytes: concatenation of texts is concatenation
    of their encodings, so non-ASCII names need no separate treatment. *)
Inductive value : Type :=
  | PyNone
  | PyBool (b : bool)
  | PyInt (n : Z)
  | PyStr (s : string).

Definition is_str (v : value) : bool :=
  match v with
  | PyStr _ => true
  | _ => false
  end.

(** A formatted string literal is split by the compiler, once and from the
    program text alone, into literal pieces and replacement fields.  A
    field holds the value of its expression; the fields of this program
    have no conversion and an empty format specification. *)
Inductive fpart : Type :=
  | Literal (text : string)
  | Field (val : string).

(** [format(s, "")] of a [str] is [s] itself. *)
Definition format_value (s : string) : string := s.

Definition eval_part (p : fpart) : string :=
  match p with
  | Literal text => text
  | Field val => format_value val
  end.

(** The pieces are joined left to right with nothing between them. *)
Fixpoint build_string (pieces : list string) : string :=
  match pieces with
  | [] => ""
  | p :: rest => p +:+ build_string rest
  end.

Definition fstring (parts : list fpart) : string :=
  build_string (map eval_part parts).

(** A call either returns a value or raises. *)
Inductive outcome (A : Type) : Type :=
  | Returned (a : A)
  | Raised (exc : string).
Arguments Returned {A} a.
Arguments Raised {A} exc.

(** Code runs against the state [W] of the process (module globals and
    everything else a call could read or write). *)
Definition State (W A : Type) : Type := W -> A * W.

Definition Call (W A : Type) : Type := State W (outcome A).

Definition pure {W A} (a : A) : State W A := fun w => (a, w).

Definition seq {W A B} (c : State W A) (k : A -> State W B) : State W B :=
  fun w => let (a, w') := c w in k a w'.

(** [return e] for an expression [e] without effects. *)
Definition ret {W A} (a : A) : Call W A := pure (Returned a).

Definition raise {W A} (exc : string) : Call W A := pure (Raised exc).

End Py.

Notation "x <- c ;; k" := (Py.seq c (fun x => k))
  (at level 100, c at next level, right associativity).

(** ** The framework layer *)

Module FastAPI.
Import Py.

(** Modelled from the spec: the framework layer that [api/main.py]
    imports ([from fastapi import FastAPI]) and that is not part of the
    repository.  It covers what sections 4.1, 6 and 7 of the specification
    say of it: a request for a registered route has its parameters bound
    from the query string; a required parameter that is missing is
    rejected with a client-error response before the handler is reached
    (the framework answers 422 with a [detail] list); otherwise the
    handler runs and the object it returns is the body of a 200 response.
    A handler that raises would be answered with a 500 response.  Routes
    of one query parameter are enough for this module. *)

(** The decoded items of the query string, in the order they were sent.
    An item with an empty value ([name=]) is kept. *)
Definition query : Type := list (string * string).

Record request : Type := Request {
  req_method : string;
  req_path : string;
  req_query : query
}.

(** The value bound to [key]: of several items with that key, the last. *)
Fixpoint query_get (key : string) (q : query) : option string :=
  match q with
  | [] => None
  | (k, v) :: rest =>
      match query_get key rest with
      | Some v' => Some v'
      | None => if decide (k = key) then Some v else None
      end
  end.

(** A parameter of a handler's signature: its name and, when the
    signature gives one, its default.  Every query value is a text, so a
    parameter annotated [str] accepts each as it is. *)
Record param : Type := Param {
  p_name : string;
  p_default : option string
}.

Inductive validation_error : Type :=
  | Missing (loc : list string).

Definition bind_param (p : param) (q : query) : validation_error + string :=
  match query_get (p_name p) q with
  | Some v => inr v
  | None =>
      match p_default p with
      | Some d => inr d
      | None => inl (Missing ["query"; p_name p])
      end
  end.

Inductive body : Type :=
  | JsonObject (fields : gmap string value)
  | ValidationDetail (errors : list validation_error)
  | PlainText (text : string).

Record response : Type := Response {
  status : Z;
  content : body
}.

(** The names of the top-level fields of a body. *)
Definition has_field (b : body) (k : string) : bool :=
  match b with
  | JsonObject fields => bool_decide (is_Some (fields !! k))
  | ValidationDetail _ => bool_decide (k = "detail")
  | PlainText _ => false
  end.

Definition get_field (b : body) (k : string) : option value :=
  match b with
  | JsonObject fields => fields !! k
  | _ => None
  end.

Definition is_client_error (r : response) : bool :=
  ((400 <=? status r) && (status r <? 500))%Z.

Definition is_server_error (r : response) : bool :=
  ((500 <=? status r) && (status r <? 600))%Z.

Definition json_response (fields : gmap string value) : response :=
  Response 200 (JsonObject fields).

Definition request_validation_error (errors : list validation_error) : response :=
  Response 422 (ValidationDetail errors).

Definition internal_server_error : response :=
  Response 500 (PlainText "Internal Server Error").

Definition handler (W : Type) : Type := string -> Call W (gmap string value).

Record route (W : Type) : Type := Route {
  r_method : string;
  r_path : string;
  r_param : param;
  r_handler : handler W
}.
Arguments Route {W} _ _ _ _.
Arguments r_method {W} _.
Arguments r_path {W} _.
Arguments r_param {W} _.
Arguments r_handler {W} _.

(** [@app.get(path)] over a handler with the one parameter [p]. *)
Definition get {W} (path : string) (p : param) (h : handler W) : route W :=
  Route "GET" path p h.

(** Answering a request that was matched to the route [r]. *)
Definition run_route {W} (r : route W) (q : query) : State W response :=
  match bind_param (r_param r) q with
  | inl e => pure (request_validation_error [e])
  | inr v =>
      o <- r_handler r v ;;
      match o with
      | Returned fields => pure (json_response fields)
      | Raised _ => pure internal_server_error
      end
  end.

Definition matches {W} (r : route W) (req : request) : bool :=
  bool_decide (r_method r = req_method req) && bool_decide (r_path r = req_path req).

Definition find_route {W} (app : list (route W)) (req : request) : option (route W) :=
  List.find (fun r => matches r req) app.

(** The answer to one request; [None] when no route registered by the
    module matches it, which is left to the framework. *)
Definition handle {W} (app : list (route W)) (req : request) : State W (option response) :=
  match find_route app req with
  | Some r => resp <- run_route r (req_query req) ;; pure (Some resp)
  | None => pure None
  end.

(** Requests answered one after the other by the same process. *)
Fixpoint serve {W} (app : list (route W)) (reqs : list request)
  : State W (list (option response)) :=
  match reqs with
  | [] => pure []
  | req :: rest =>
      resp <- handle app req ;;
      resps <- serve app rest ;;
      pure (resp :: resps)
  end.

End FastAPI.

(** ** The module [api/main.py] *)

Module Main.
Import Py FastAPI.

(** [def greet(name: str): return {"message": f"Hello, my name is {name}"}] *)
Definition greet {W} (name : string) : Call W (gmap string value) :=
  ret {[ "message" := PyStr (fstring [Literal "Hello, my name is "; Field name]) ]}.

(** The signature [(name: str)]: one parameter, without a default. *)
Definition greet_name : param := Param "name" None.

(** [app = FastAPI()] with the one route [@app.get("/greet")]. *)
Definition app {W} : list (route W) := [get "/greet" greet_name greet].

End Main.

Import Py FastAPI Main.

(** ** Vocabulary of the contract *)

(** The text under [message] in what a call returned. *)
Definition message_of (o : outcome (gmap string value)) : option string :=
  match o with
  | Returned fields =>
      match fields !! "message" with
      | Some (PyStr s) => Some s
      | _ => None
      end
  | Raised _ => None
  end.

(** [s] without the leading [p], when [s] starts with [p]. *)
Definition strip_prefix (p s : string) : option string :=
  if String.prefix p s
  then Some (substring (String.length p) (String.length s - String.length p) s)
  else None.

(** ** Strings *)

Lemma append_cons (c : ascii) (s t : string) :
  String c s +:+ t = String c (s +:+ t).
Proof. reflexivity. Qed.

Lemma append_empty_r (s : string) : s +:+ "" = s.
Proof.
  induction s as [|c s IH]; [reflexivity|].
  rewrite append_cons. f_equal. exact IH.
Qed.

Lemma length_append (s t : string) :
  String.length (s +:+ t) = String.length s + String.length t.
Proof.
  induction s as [|c s IH]; [reflexivity|].
  rewrite append_cons. simpl. f_equal. exact IH.
Qed.

Lemma substring_all (s : string) : substring 0 (String.length s) s = s.
Proof. induction s as [|c s IH]; simpl; [reflexivity | f_equal; exact IH]. Qed.

Lemma substring_append_l (p s : string) :
  substring 0 (String.length p) (p +:+ s) = p.
Proof.
  induction p as [|c p IH].
  - destruct s; reflexivity.
  - rewrite append_cons. simpl. f_equal. exact IH.
Qed.

Lemma substring_append_r (p s : string) :
  substring (String.length p) (String.length s) (p +:+ s) = s.
Proof.
  induction p as [|c p IH].
  - apply substring_all.
  - rewrite append_cons. simpl. exact IH.
Qed.

Lemma prefix_append (p s : string) : String.prefix p (p +:+ s) = true.
Proof. apply prefix_correct, substring_append_l. Qed.

Lemma strip_prefix_append (p s : string) : strip_prefix p (p +:+ s) = Some s.
Proof.
  unfold strip_prefix. rewrite prefix_append, length_append.
  replace (String.length p + String.length s - String.length p)
    with (String.length s) by lia.
  now rewrite substring_append_r.
Qed.

Lemma fstring_greeting (name : string) :
  fstring [Literal "Hello, my name is "; Field name] = "Hello, my name is " +:+ name.
Proof.
  unfold fstring, format_value. simpl. now rewrite append_empty_r.
Qed.

(** ** The handler *)

Lemma greet_run {W} (name : string) (w : W) :
  greet name w = (Returned {[ "message" := PyStr ("Hello, my name is " +:+ name) ]}, w).
Proof. unfold greet, ret, pure. now rewrite fstring_greeting. Qed.

(** Braces, format directives and bytes above 127 in a name are data:
    they reach the message as they are. *)
Example greet_braces :
  message_of (greet "{name} %s {0!r} José" tt).1
  = Some "Hello, my name is {name} %s {0!r} José".
Proof. reflexivity. Qed.

Example greet_quote :
  message_of (greet (String (ascii_of_nat 34) "x") tt).1
  = Some ("Hello, my name is " +:+ String (ascii_of_nat 34) "x").
Proof. reflexivity. Qed.

(** ** Parameter binding and routing *)

Lemma query_get_None (key : string) (q : query) :
  key ∉ q.*1 -> query_get key q = None.
Proof.
  induction q as [|[k v] q IH]; intros Hnot; [reflexivity|].
  simpl in *. apply not_elem_of_cons in Hnot as [Hne Hrest].
  rewrite (IH Hrest). destruct (decide (k = key)); [subst; contradiction | reflexivity].
Qed.

Lemma query_get_Some (key v : string) (q : query) :
  query_get key q = Some v -> (key, v) ∈ q.
Proof.
  induction q as [|[k u] q IH]; simpl; [discriminate|].
  destruct (query_get key q) as [v'|] eqn:E.
  - intros [= <-]. right. now apply IH.
  - destruct (decide (k = key)) as [->|]; [|discriminate].
    intros [= <-]. left.
Qed.

Lemma query_get_is_Some (key : string) (q : query) :
  key ∈ q.*1 -> is_Some (query_get key q).
Proof.
  induction q as [|[k u] q IH]; simpl; intros Hin.
  - now apply elem_of_nil in Hin.
  - destruct (query_get key q) as [v'|] eqn:E; [eauto|].
    apply elem_of_cons in Hin as [->|Hin].
    + rewrite decide_True by reflexivity. eauto.
    + destruct (IH Hin) as [? ?]. discriminate.
Qed.

Lemma run_route_missing {W} (path : string) (h : handler W) (q : query) (w : W) :
  query_get "name" q = None ->
  run_route (get path greet_name h) q w
  = (request_validation_error [Missing ["query"; "name"]], w).
Proof. intros E. unfold run_route, bind_param. simpl. now rewrite E. Qed.

Lemma run_route_greet {W} (path v : string) (q : query) (w : W) :
  query_get "name" q = Some v ->
  run_route (get path greet_name greet) q w
  = (json_response {[ "message" := PyStr ("Hello, my name is " +:+ v) ]}, w).
Proof.
  intros E. unfold run_route, bind_param. simpl. rewrite E.
  unfold seq. now rewrite greet_run.
Qed.

Lemma handle_get_greet {W} (h : handler W) (req : request) (w : W) :
  req_method req = "GET" -> req_path req = "/greet" ->
  handle [get "/greet" greet_name h] req w
  = (let (r, w') := run_route (get "/greet" greet_name h) (req_query req) w in
     (Some r, w')).
Proof.
  destruct req as [m p q]. simpl. intros -> ->. reflexivity.
Qed.

(** ** The contract *)

(** C1: for every text value [v], calling the handler with [name = v],
    directly or through [GET /greet?name=v], gives an object whose
    [message] is ["Hello, my name is "] followed by [v]; for ["Alice"]
    the message is ["Hello, my name is Alice"]. *)
Theorem greet_message {W} (v : string) (w : W) :
  (exists fields, greet v w = (Returned fields, w)
     /\ fields !! "message" = Some (PyStr ("Hello, my name is " +:+ v)))
  /\ (exists r, handle app (Request "GET" "/greet" [("name", v)]) w = (Some r, w)
        /\ get_field (content r) "message"
           = Some (PyStr ("Hello, my name is " +:+ v)))
  /\ message_of (greet "Alice" w).1 = Some "Hello, my name is Alice".
Proof.
  split; [|split].
  - eexists. split; [apply greet_run|]. apply lookup_singleton_eq.
  - eexists. split.
    + unfold app. rewrite handle_get_greet by reflexivity. simpl req_query.
      rewrite (run_route_greet _ v); reflexivity.
    + simpl. apply lookup_singleton_eq.
  - rewrite greet_run. simpl. now rewrite lookup_singleton_eq.
Qed.

(** C3: a [name] that is present and empty is accepted: the request
    [GET /greet?name=] is answered 200, neither as a client error nor as
    a server error, and its [message] is ["Hello, my name is "] with
    nothing after the space. *)
Theorem greet_empty_name {W} (w : W) :
  greet "" w = (Returned {[ "message" := PyStr "Hello, my name is " ]}, w)
  /\ bind_param greet_name [("name", "")] = inr ""
  /\ handle app (Request "GET" "/greet" [("name", "")]) w
     = (Some (Response 200 (JsonObject {[ "message" := PyStr "Hello, my name is " ]})), w).
Proof.
  split; [|split].
  - apply (greet_run "").
  - reflexivity.
  - unfold app. rewrite handle_get_greet by reflexivity. simpl req_query.
    now rewrite (run_route_greet _ "").
Qed.

(** C5: for every name the handler returns an object with exactly one
    field; the field is named [message] and holds a text.  The body of a
    200 response has no field but [message]. *)
Theorem greet_single_field {W} (name : string) (w : W) :
  (exists fields, (greet name w).1 = Returned fields
     /\ dom fields = {[ "message" ]}
     /\ size fields = 1
     /\ exists v, fields !! "message" = Some v /\ is_str v = true)
  /\ (forall (req : request) (r : response) (k : string),
        (handle app req w).1 = Some r -> status r = 200%Z ->
        has_field (content r) k = true -> k = "message").
Proof.
  split.
  - rewrite greet_run. eexists. split; [reflexivity|].
    split; [apply dom_singleton_L|]. split; [apply map_size_singleton|].
    eexists. split; [apply lookup_singleton_eq | reflexivity].
  - intros req r k Hr Hst Hk.
    unfold handle, app in Hr.
    destruct (find_route _ req) as [rt|] eqn:Hfind; [|discriminate].
    apply find_some in Hfind as [Hin _].
    apply list_elem_of_In, list_elem_of_singleton in Hin. subst rt.
    unfold seq, run_route, bind_param in Hr. simpl in Hr.
    destruct (query_get "name" (req_query req)) as [v|].
    + unfold seq in Hr. rewrite greet_run in Hr. simpl in Hr.
      injection Hr as <-. simpl in Hk.
      apply bool_decide_eq_true in Hk as [x Hx].
      apply lookup_singleton_Some in Hx as [<- _]. reflexivity.
    + simpl in Hr. injection Hr as <-. discriminate.
Qed.

(** C8: for every string [name], whatever characters it is made of, the
    handler returns and does not raise, and the message is the fixed
    prefix with [name] inserted as it is: its first 18 characters are the
    prefix, the rest is [name], character for character. *)
Theorem greet_total_verbatim {W} (name : string) (w : W) :
  exists msg,
    greet name w = (Returned {[ "message" := PyStr msg ]}, w)
    /\ String.length msg = 18 + String.length name
    /\ substring 0 18 msg = "Hello, my name is "
    /\ substring 18 (String.length name) msg = name.
Proof.
  exists ("Hello, my name is " +:+ name). split; [apply greet_run|].
  split; [apply length_append|].
  split.
  - apply (substring_append_l "Hello, my name is ").
  - apply (substring_append_r "Hello, my name is ").
Qed.

(** C9: the greeting is injective in the name: two calls with equal
    messages were given equal names, and the name is what is left of the
    message once the prefix ["Hello, my name is "] is taken off. *)
Theorem greet_injective {W1 W2} (v1 v2 : string) (w1 : W1) (w2 : W2) :
  message_of (greet v1 w1).1 = message_of (greet v2 w2).1 ->
  v1 = v2
  /\ message_of (greet v1 w1).1 ≫= strip_prefix "Hello, my name is " = Some v1.
Proof.
  rewrite !greet_run. simpl. rewrite !lookup_singleton_eq.
  intros H.
  assert (Hmsg : "Hello, my name is " +:+ v1 = "Hello, my name is " +:+ v2)
    by congruence.
  split.
  - exact (String.app_inj "Hello, my name is " _ _ Hmsg).
  - simpl. apply strip_prefix_append.
Qed.

Lemma greet_injective_witness :
  message_of (greet "Ada" tt).1 = message_of (greet "Ada" 0).1
  /\ "Ada" = "Ada"
  /\ message_of (greet "Ada" tt).1 ≫= strip_prefix "Hello, my name is " = Some "Ada".
Proof.
  split; [reflexivity|].
  apply (greet_injective "Ada" "Ada" tt 0). reflexivity.
Defined.

Lemma greet_single_field_witness :
  (handle (W:=unit) app (Request "GET" "/greet" [("name", "Ada")]) tt).1
  = Some (Response 200 (JsonObject {[ "message" := PyStr "Hello, my name is Ada" ]}))
  /\ "message" = "message".
Proof.
  split; [reflexivity|].
  apply (proj2 (greet_single_field "Ada" tt)
           (Request "GET" "/greet" [("name", "Ada")])
           (Response 200 (JsonObject {[ "message" := PyStr "Hello, my name is Ada" ]}))
           "message"); reflexivity.
Defined.

(** *** The framework in front of the handler *)

(** C2: a request [GET /greet] whose query has no [name] is answered by
    the framework with a client error (422), not with a server error;
    the answer is the same whatever handler is registered, so it is made
    without running the handler, and its body has no [message] field. *)
Theorem missing_name_rejected {W} (req : request) (w : W) :
  req_method req = "GET" -> req_path req = "/greet" ->
  "name" ∉ (req_query req).*1 ->
  exists r,
    handle app req w = (Some r, w)
    /\ (forall h : handler W, handle [get "/greet" greet_name h] req w = (Some r, w))
    /\ is_client_error r = true
    /\ is_server_error r = false
    /\ has_field (content r) "message" = false
    /\ get_field (content r) "message" = None.
Proof.
  intros Hm Hp Hq. apply query_get_None in Hq.
  exists (request_validation_error [Missing ["query"; "name"]]).
  assert (Hall : forall h : handler W,
             handle [get "/greet" greet_name h] req w
             = (Some (request_validation_error [Missing ["query"; "name"]]), w)).
  { intros h. rewrite handle_get_greet by assumption.
    now rewrite run_route_missing. }
  split; [apply Hall|]. split; [exact Hall|]. repeat split.
Qed.

Lemma missing_name_rejected_witness :
  exists r,
    handle app (Request "GET" "/greet" [("age", "7")]) tt = (Some r, tt)
    /\ is_client_error r = true
    /\ has_field (content r) "message" = false.
Proof.
  destruct (missing_name_rejected (Request "GET" "/greet" [("age", "7")]) tt)
    as (r & Hr & _ & Hc & _ & Hf & _).
  - reflexivity.
  - reflexivity.
  - simpl. intros Hin. apply list_elem_of_singleton in Hin. discriminate.
  - exists r. auto.
Defined.

(** C6: a request [GET /greet] whose query has a [name] is answered
    [200] with the body [{"message": "Hello, my name is <value>"}], where
    [<value>] is the value bound to [name]; it is neither a client error
    nor a server error. *)
Theorem named_request_ok {W} (req : request) (w : W) :
  req_method req = "GET" -> req_path req = "/greet" ->
  "name" ∈ (req_query req).*1 ->
  exists v r,
    ("name", v) ∈ req_query req
    /\ query_get "name" (req_query req) = Some v
    /\ handle app req w = (Some r, w)
    /\ status r = 200%Z
    /\ content r = JsonObject {[ "message" := PyStr ("Hello, my name is " +:+ v) ]}
    /\ is_client_error r = false
    /\ is_server_error r = false.
Proof.
  intros Hm Hp Hq. destruct (query_get_is_Some _ _ Hq) as [v Hv].
  exists v, (json_response {[ "message" := PyStr ("Hello, my name is " +:+ v) ]}).
  split; [now apply query_get_Some|]. split; [exact Hv|].
  split; [|repeat split].
  unfold app. rewrite handle_get_greet by assumption.
  now rewrite (run_route_greet _ v).
Qed.

Lemma named_request_ok_witness :
  exists r,
    handle app (Request "GET" "/greet" [("lang", "en"); ("name", "Alice")]) tt
    = (Some r, tt)
    /\ status r = 200%Z.
Proof.
  destruct (named_request_ok
              (Request "GET" "/greet" [("lang", "en"); ("name", "Alice")]) tt)
    as (v & r & _ & _ & Hr & Hs & _).
  - reflexivity.
  - reflexivity.
  - simpl. right. left.
  - exists r. auto.
Defined.

(** *** State *)

Lemma handle_app_frame {W1 W2} (req : request) (w : W1) (w0 : W2) :
  handle app req w = ((handle app req w0).1, w).
Proof.
  unfold handle, app, find_route. simpl.
  destruct (matches _ req); [|reflexivity].
  unfold seq, run_route, bind_param. simpl.
  destruct (query_get "name" (req_query req)) as [v|]; [|reflexivity].
  unfold seq. now rewrite !greet_run.
Qed.

Lemma serve_app_frame {W1 W2} (reqs : list request) (w : W1) (w0 : W2) :
  serve app reqs w = (map (fun req => (handle app req w0).1) reqs, w).
Proof.
  induction reqs as [|req reqs IH]; [reflexivity|].
  simpl. unfold seq. rewrite (handle_app_frame req w w0), IH. reflexivity.
Qed.

(** C4: the handler is deterministic and idempotent: for a name [v] it
    produces a message in every state of the process, and the same one;
    a second call with [v] returns what the first returned; and two
    requests that bind [name] to [v] are both answered with that
    message, and alike, whatever else they carry. *)
Theorem greet_idempotent {W1 W2} (v : string) (q1 q2 : query) (w1 : W1) (w2 : W2) :
  query_get "name" q1 = Some v -> query_get "name" q2 = Some v ->
  (greet v w1).1 = (greet v w2).1
  /\ (o1 <- greet v ;; o2 <- greet v ;; pure (o1, o2)) w1
     = (((greet v w2).1, (greet v w2).1), w1)
  /\ message_of (greet v w1).1 = message_of (greet v w2).1
  /\ (handle app (Request "GET" "/greet" q1) w1).1
     = (handle app (Request "GET" "/greet" q2) w2).1
  /\ exists m,
       message_of (greet v w1).1 = Some m
       /\ message_of (greet v w2).1 = Some m
       /\ (exists r1, (handle app (Request "GET" "/greet" q1) w1).1 = Some r1
             /\ get_field (content r1) "message" = Some (PyStr m))
       /\ (exists r2, (handle app (Request "GET" "/greet" q2) w2).1 = Some r2
             /\ get_field (content r2) "message" = Some (PyStr m)).
Proof.
  intros H1 H2. split; [now rewrite !greet_run|].
  split; [unfold seq; now rewrite !greet_run|].
  split; [now rewrite !greet_run|].
  unfold app. rewrite !handle_get_greet by reflexivity. simpl req_query.
  rewrite (run_route_greet _ v q1), (run_route_greet _ v q2) by assumption.
  split; [reflexivity|].
  exists ("Hello, my name is " +:+ v). rewrite !greet_run.
  assert (Hlook : ({[ "message" := PyStr ("Hello, my name is " +:+ v) ]}
                     : gmap string value) !! "message"
                  = Some (PyStr ("Hello, my name is " +:+ v)))
    by apply lookup_singleton_eq.
  unfold message_of. cbn [fst]. rewrite Hlook.
  split; [reflexivity|]. split; [reflexivity|].
  split; eexists; (split; [reflexivity | exact Hlook]).
Qed.

Lemma greet_idempotent_witness :
  message_of (greet "Alice" 0).1 = message_of (greet "Alice" true).1
  /\ (handle app (Request "GET" "/greet" [("name", "Alice")]) 0).1
     = (handle app (Request "GET" "/greet" [("name", "Bob"); ("name", "Alice")]) true).1
  /\ exists m,
       message_of (greet "Alice" 0).1 = Some m
       /\ message_of (greet "Alice" true).1 = Some m.
Proof.
  destruct (greet_idempotent "Alice" [("name", "Alice")]
              [("name", "Bob"); ("name", "Alice")] 0 true)
    as (_ & _ & Hm & Hh & m & Hm1 & Hm2 & _); [reflexivity | reflexivity |].
  split; [exact Hm|]. split; [exact Hh|]. exists m. auto.
Defined.

(** C7: the handler has no side effects: a call leaves the state of the
    process as it found it and returns the same whatever that state is;
    hence a sequence of requests leaves the state unchanged, and each
    request in it gets the answer it would get alone, from any state. *)
Theorem greet_no_side_effects {W} (name : string) (reqs : list request) (w w0 : W) :
  (greet name w).2 = w
  /\ (greet name w).1 = (greet name w0).1
  /\ (serve app reqs w).2 = w
  /\ (serve app reqs w).1 = map (fun req => (handle app req w0).1) reqs.
Proof.
  rewrite !greet_run, (serve_app_frame reqs w w0). repeat split.
Qed.

(** ** Further properties of the handler and its route *)

Lemma append_assoc (a b c : string) : (a +:+ b) +:+ c = a +:+ (b +:+ c).
Proof.
  induction a as [|x a IH]; [reflexivity|].
  rewrite !append_cons. f_equal. exact IH.
Qed.

Lemma prefix_split (p s : string) :
  String.prefix p s = true ->
  s = p +:+ substring (String.length p) (String.length s - String.length p) s.
Proof.
  revert s. induction p as [|c p IH]; intros s Hpre.
  - simpl. rewrite Nat.sub_0_r. symmetry. apply substring_all.
  - destruct s as [|d s]; [discriminate|].
    simpl in Hpre. destruct (ascii_dec c d) as [->|]; [|discriminate].
    rewrite append_cons. simpl. f_equal. apply IH, Hpre.
Qed.

Lemma message_of_greet {W} (name : string) (w : W) :
  message_of (greet name w).1 = Some ("Hello, my name is " +:+ name).
Proof. rewrite greet_run. simpl. now rewrite lookup_singleton_eq. Qed.

(** X1: the name sits at the end of the message: extending a name extends
    its greeting by the same text. *)
Theorem greet_append {W} (a b : string) (w : W) :
  message_of (greet (a +:+ b) w).1
  = (fun m => m +:+ b) <$> message_of (greet a w).1.
Proof.
  rewrite !message_of_greet. simpl. now rewrite append_assoc.
Qed.

(** X2: every text that starts with ["Hello, my name is "] is a greeting: it
    is the message the handler returns for what follows the prefix. *)
Theorem greet_of_stripped {W} (m v : string) (w : W) :
  strip_prefix "Hello, my name is " m = Some v ->
  message_of (greet v w).1 = Some m.
Proof.
  unfold strip_prefix.
  destruct (String.prefix "Hello, my name is " m) eqn:Hpre; [|discriminate].
  intros [= <-]. rewrite message_of_greet. f_equal.
  symmetry. now apply prefix_split.
Qed.

Lemma greet_of_stripped_witness :
  strip_prefix "Hello, my name is " "Hello, my name is Bo" = Some "Bo"
  /\ message_of (greet "Bo" tt).1 = Some "Hello, my name is Bo".
Proof.
  split; [reflexivity|].
  apply (greet_of_stripped "Hello, my name is Bo" "Bo" tt). reflexivity.
Defined.

(** X4: two requests to [GET /greet] get the same answer exactly when they
    bind [name] alike (to the same value, or both not at all): the answer
    tells names apart and depends on nothing else in the request. *)
Theorem greet_answers_equal_iff {W1 W2} (q1 q2 : query) (w1 : W1) (w2 : W2) :
  (handle app (Request "GET" "/greet" q1) w1).1
  = (handle app (Request "GET" "/greet" q2) w2).1
  <-> query_get "name" q1 = query_get "name" q2.
Proof.
  unfold app. rewrite !handle_get_greet by reflexivity. simpl req_query.
  destruct (query_get "name" q1) as [v1|] eqn:H1;
    destruct (query_get "name" q2) as [v2|] eqn:H2.
  - rewrite (run_route_greet _ v1 q1), (run_route_greet _ v2 q2) by assumption.
    simpl. split.
    + intros Heq.
      pose (field := fun o : option response =>
                       match o with
                       | Some r => get_field (content r) "message"
                       | None => None
                       end).
      assert (Hlook : field (Some (json_response
                         {[ "message" := PyStr ("Hello, my name is " +:+ v1) ]}))
                      = field (Some (json_response
                         {[ "message" := PyStr ("Hello, my name is " +:+ v2) ]})))
        by now rewrite Heq.
      cbv beta iota delta [field json_response get_field content] in Hlook.
      rewrite !lookup_singleton_eq in Hlook.
      assert (Hmsg : "Hello, my name is " +:+ v1 = "Hello, my name is " +:+ v2)
        by congruence.
      f_equal. exact (String.app_inj "Hello, my name is " _ _ Hmsg).
    + intros [= ->]. reflexivity.
  - rewrite (run_route_greet _ v1 q1), run_route_missing by assumption.
    simpl. split; discriminate.
  - rewrite run_route_missing, (run_route_greet _ v2 q2) by assumption.
    simpl. split; discriminate.
  - rewrite !run_route_missing by assumption. simpl. split; reflexivity.
Qed.
